(** * Geospatial utilities: a shallow embedding of [geospatial_utilities.py]

    The module samples and denoises single-band rasters at a geographic
    point.  Python floats are embedded as exact rationals ([Q]) extended
    with a NaN element where the code inspects it; Python ints are [Z];
    exceptions are an explicit [Raise] outcome carrying the class name.
    The raster, projection and resampling libraries are capabilities the
    functions are parameterised over. *)

From Stdlib Require Import ZArith QArith Qround List Bool String Lia Lqa.
Import ListNotations.

Local Open Scope Z_scope.

(** ** Outcomes of a Python call *)

Inductive exn : Type := Exn (cls : string).

Definition IndexError : exn := Exn "IndexError".
Definition ValueError : exn := Exn "ValueError".
Definition UnboundLocalError : exn := Exn "UnboundLocalError".
Definition ZeroDivisionError : exn := Exn "ZeroDivisionError".
Definition TransformNotInvertibleError : exn := Exn "TransformNotInvertibleError".

Definition exn_cls (e : exn) : string := let (c) := e in c.

Definition exn_eqb (a b : exn) : bool := String.eqb (exn_cls a) (exn_cls b).

Inductive result (A : Type) : Type :=
| Return (a : A)
| Raise (e : exn).

Arguments Return {A} a.
Arguments Raise {A} e.

Definition bind {A B : Type} (m : result A) (k : A -> result B) : result B :=
  match m with
  | Return a => k a
  | Raise e => Raise e
  end.

Notation "x <- m ;; k" := (bind m (fun x => k))
  (at level 61, m at next level, right associativity).
Notation "' pat <- m ;; k" := (bind m (fun x => match x with pat => k end))
  (at level 61, pat pattern, m at next level, right associativity).

(** [try: body except classes: handler]. *)
Definition try_except {A : Type} (body : result A) (classes : list exn)
    (handler : result A) : result A :=
  match body with
  | Return a => Return a
  | Raise e => if existsb (exn_eqb e) classes then handler else Raise e
  end.

Definition raises {A : Type} (m : result A) : Prop := exists e, m = Raise e.

(** ** Numbers *)

(** [int(x)] on a finite float: truncation toward zero. *)
Definition py_int (x : Q) : Z := Z.quot (Qnum x) (Z.pos (Qden x)).

(** A pixel value: a finite number or NaN. *)
Inductive num : Type :=
| Fin (q : Q)
| NaN.

Definition isnan (v : num) : bool :=
  match v with NaN => true | Fin _ => false end.

Definition nlift2 (f : Q -> Q -> Q) (a b : num) : num :=
  match a, b with
  | Fin x, Fin y => Fin (f x y)
  | _, _ => NaN
  end.

Definition nadd := nlift2 Qplus.
Definition nsub := nlift2 Qminus.
Definition nmul := nlift2 Qmult.
Definition ndiv := nlift2 Qdiv.

(** [v == 0]; a comparison with NaN is false. *)
Definition n_eq_zero (v : num) : bool :=
  match v with Fin q => Qeq_bool q 0 | NaN => false end.

(** ** CoordinateResolver *)

Definition get_utm_zone (longitude : Q) : Z :=
  let zone_number := py_int ((longitude + 180) / 6) + 1 in
  if 60 <? zone_number then 1 else zone_number.

(** [epsg_code] is assigned on the two branches only; reading it in the
    [return] when neither ran is Python's [UnboundLocalError]. *)
Definition get_epsg_code (utm_zone : Z) (hemisphere : string) : result Z :=
  let epsg_code : option Z :=
    if String.eqb hemisphere "N" then Some (32600 + utm_zone)
    else if String.eqb hemisphere "S" then Some (32700 + utm_zone)
    else None in
  match epsg_code with
  | Some c => Return c
  | None => Raise UnboundLocalError
  end.

(** ['N' if coordinate[0] >= 0 else 'S']. *)
Definition hemisphere_of (latitude : Q) : string :=
  if Qle_bool 0 latitude then "N"%string else "S"%string.

(** ** Arrays *)

Definition grid : Type := list (list num).

Definition len {A : Type} (l : list A) : Z := Z.of_nat (List.length l).

(** [range(n)]. *)
Definition zrange (n : Z) : list Z := map Z.of_nat (seq 0 (Z.to_nat n)).

(** One axis of a NumPy integer index: [-n <= i < n], negative indices
    counting from the end. *)
Definition np_axis (n i : Z) : result nat :=
  if (0 <=? i) && (i <? n) then Return (Z.to_nat i)
  else if (- n <=? i) && (i <? 0) then Return (Z.to_nat (i + n))
  else Raise IndexError.

(** [a[r, c]] on a two-dimensional array. *)
Definition np_index2 (a : grid) (r c : Z) : result num :=
  ri <- np_axis (len a) r ;;
  let row := nth ri a [] in
  ci <- np_axis (len row) c ;;
  Return (nth ci row NaN).

(** [values[i]] on a Python list. *)
Definition py_getitem {A : Type} (l : list A) (i : Z) : result A :=
  k <- np_axis (len l) i ;;
  match nth_error l k with
  | Some a => Return a
  | None => Raise IndexError
  end.

Fixpoint chunks (rows cols : nat) (w : list num) : grid :=
  match rows with
  | O => []
  | S r => firstn cols w :: chunks r cols (skipn cols w)
  end.

(** [w.reshape((rows, cols))], row-major. *)
Definition np_reshape (rows cols : Z) (w : list num) : result grid :=
  if (0 <=? rows) && (0 <=? cols) && (len w =? rows * cols)
  then Return (chunks (Z.to_nat rows) (Z.to_nat cols) w)
  else Raise ValueError.

Definition nsum (w : list num) : num := fold_left nadd w (Fin 0).

(** [np.mean]: NaN on an empty array. *)
Definition np_mean (w : list num) : num :=
  match w with
  | [] => NaN
  | _ => ndiv (nsum w) (Fin (inject_Z (len w)))
  end.

(** [np.var]: the mean of the squared deviations from the mean. *)
Definition np_var (w : list num) : num :=
  let m := np_mean w in
  np_mean (map (fun x => nmul (nsub x m) (nsub x m)) w).

Fixpoint mapM {A B : Type} (f : A -> result B) (l : list A) : result (list B) :=
  match l with
  | [] => Return []
  | x :: xs => y <- f x ;; ys <- mapM f xs ;; Return (y :: ys)
  end.

(** ** scipy.ndimage.generic_filter, [mode='constant'], [cval=0], [origin=0] *)

Definition cval : num := Fin 0.

(** The input extended by the constant outside its extent. *)
Definition pad_get (a : grid) (r c : Z) : num :=
  if (r <? 0) || (c <? 0) then cval
  else nth (Z.to_nat c) (nth (Z.to_nat r) a []) cval.

(** The flattened [size] x [size] neighbourhood handed to the callback for
    output cell [(i, j)]: offsets [-(size // 2) .. size - 1 - size // 2]. *)
Definition footprint (size : Z) (a : grid) (i j : Z) : list num :=
  flat_map (fun di =>
    map (fun dj => pad_get a (i + di - size / 2) (j + dj - size / 2))
        (zrange size))
    (zrange size).

Definition generic_filter (a : grid) (function : list num -> result num)
    (size : Z) : result grid :=
  if size =? 0 then Raise (Exn "RuntimeError")
  else if size <? 0 then Raise ValueError
  else
    mapM (fun '(i, row) =>
            mapM (fun j => function (footprint size a i j)) (zrange (len row)))
         (combine (zrange (len a)) a).

(** The closure [lee_filter_single_pixel] of [lee_filter]. *)
Definition lee_filter_single_pixel (window_size : Z) (w : list num) : result num :=
  let local_mean := np_mean w in
  let local_variance := np_var w in
  w <- np_reshape window_size window_size w ;;
  if n_eq_zero local_variance then Return local_mean
  else
    center <- np_index2 w (window_size / 2) (window_size / 2) ;;
    Return (ndiv (nmul center local_variance) (nadd local_variance (Fin 1))).

(** ** The affine package *)

Record Affine : Type := mkAffine { a_ : Q; b_ : Q; c_ : Q; d_ : Q; e_ : Q; f_ : Q }.

(** [t * (x, y)]. *)
Definition affine_apply (t : Affine) (p : Q * Q) : Q * Q :=
  let (x, y) := p in
  (x * a_ t + y * b_ t + c_ t, x * d_ t + y * e_ t + f_ t)%Q.

Definition determinant (t : Affine) : Q := (a_ t * e_ t - b_ t * d_ t)%Q.

(** [~t]. *)
Definition affine_invert (t : Affine) : result Affine :=
  if Qeq_bool (determinant t) 0 then Raise TransformNotInvertibleError
  else
    let idet := (1 / determinant t)%Q in
    let ra := (e_ t * idet)%Q in
    let rb := (- b_ t * idet)%Q in
    let rd := (- d_ t * idet)%Q in
    let re := (a_ t * idet)%Q in
    Return (mkAffine ra rb (- c_ t * ra - f_ t * rb) rd re (- c_ t * rd - f_ t * re)).

(** [new / old] on floats. *)
Definition py_truediv (x y : Q) : result Q :=
  if Qeq_bool y 0 then Raise ZeroDivisionError else Return (x / y)%Q.

(** ** Raster source *)

Record BoundingBox : Type := mkBounds { left : Q; bottom : Q; right : Q; top : Q }.

(** [((row_start, row_stop), (col_start, col_stop))]. *)
Definition Window : Type := (Z * Z) * (Z * Z).

Inductive Resampling : Type := nearest | bilinear.

Section Raster.

(** Coordinate reference systems are opaque to this module. *)
Variable CRS : Type.

(** The handle [rasterio.open] yields: attributes, [index(x, y)] giving
    [(row, col)], and [read(band, window, out_shape, resampling)]. *)
Record Dataset : Type := mkDataset {
  crs : CRS;
  transform : Affine;
  width : Z;
  height : Z;
  bounds : BoundingBox;
  index : Q -> Q -> Z * Z;
  read : Z -> Window -> option (Z * Z * Z) -> Resampling -> result grid
}.

(** [rasterio.open(path)]. *)
Variable rasterio_open : string -> result Dataset.
(** [pyproj.CRS.from_epsg(code)]. *)
Variable from_epsg : Z -> result CRS.
(** [Transformer.from_crs(src, dst, always_xy=True).transform(x, y)]. *)
Variable transformer_transform : CRS -> CRS -> Q -> Q -> result (Q * Q).
(** [calculate_default_transform(src, dst, width, height, *bounds,
    dst_width=, dst_height=)]. *)
Variable calculate_default_transform :
  CRS -> CRS -> Z -> Z -> BoundingBox -> Z -> Z -> result (Affine * Z * Z).

(** [bounds.left <= coordinate[1] <= bounds.right and
     bounds.bottom <= coordinate[0] <= bounds.top]. *)
Definition in_bounds (b : BoundingBox) (coordinate : Q * Q) : bool :=
  Qle_bool (left b) (snd coordinate) && Qle_bool (snd coordinate) (right b)
  && (Qle_bool (bottom b) (fst coordinate) && Qle_bool (fst coordinate) (top b)).

(** Lines 42-47: the shape asked of the resampling capability. *)
Definition requested_shape (dataset : Dataset)
    (old_resolution_meters new_resolution_meters : Q) : result (Z * Z) :=
  scale_factor_x <- py_truediv new_resolution_meters old_resolution_meters ;;
  scale_factor_y <- py_truediv new_resolution_meters old_resolution_meters ;;
  let dst_width := py_int (inject_Z (width dataset) * scale_factor_x) in
  let dst_height := py_int (inject_Z (height dataset) * scale_factor_y) in
  Return (dst_width, dst_height).

(** Line 63: [~dst_transform * (easting, northing)]. *)
Definition pixel_coordinates (dst_transform : Affine) (easting northing : Q)
    : result (Q * Q) :=
  inv <- affine_invert dst_transform ;;
  Return (affine_apply inv (easting, northing)).

(** Lines 64-73: the guarded lookup, appending to [values]. *)
Definition extract_pixel (values : list (option num)) (data : grid)
    (pixel_col pixel_row : Q) : result (list (option num)) :=
  try_except
    (extracted_value <- np_index2 data (py_int pixel_row) (py_int pixel_col) ;;
     if isnan extracted_value then Return (values ++ [None])
     else Return (values ++ [Some extracted_value]))
    [IndexError; ValueError]
    (Return (values ++ [None])).

Definition resample_and_extract_value (tiff_file : string) (coordinate : Q * Q)
    (old_resolution_meters new_resolution_meters : Q) : result (option num) :=
  let values : list (option num) := [] in
  values <-
    (dataset <- rasterio_open tiff_file ;;
     let src_crs := crs dataset in
     let utm_zone := get_utm_zone (snd coordinate) in
     let hemisphere := hemisphere_of (fst coordinate) in
     epsg_code <- get_epsg_code utm_zone hemisphere ;;
     dst_crs <- from_epsg epsg_code ;;
     let lon := snd coordinate in
     let lat := fst coordinate in
     '(easting, northing) <- transformer_transform src_crs dst_crs lon lat ;;
     '(dst_width, dst_height) <-
        requested_shape dataset old_resolution_meters new_resolution_meters ;;
     '(dst_transform, dst_width, dst_height) <-
        calculate_default_transform src_crs dst_crs (width dataset)
          (height dataset) (bounds dataset) dst_width dst_height ;;
     data <- read dataset 1 ((0, dst_height), (0, dst_width))
               (Some (1, dst_height, dst_width)) bilinear ;;
     '(pixel_col, pixel_row) <- pixel_coordinates dst_transform easting northing ;;
     extract_pixel values data pixel_col pixel_row) ;;
  py_getitem values 0.

Definition extract_values_at_coordinates (tiff_file : string)
    (coordinate : Q * Q) : result (list (option num)) :=
  let values : list (option num) := [] in
  dataset <- rasterio_open tiff_file ;;
  let bounds := bounds dataset in
  if in_bounds bounds coordinate then
    let '(row, col) := index dataset (snd coordinate) (fst coordinate) in
    try_except
      (value <- (arr <- read dataset 1 ((row, row + 1), (col, col + 1)) None nearest ;;
                 np_index2 arr 0 0) ;;
       Return (values ++ [Some value]))
      [IndexError]
      (Return (values ++ [None]))
  else Return (values ++ [None]).

Definition lee_filter (window_size : Z) (tiff_file : string)
    (coordinate : Q * Q) : result (option grid) :=
  let filtered_value : option grid := None in
  dataset <- rasterio_open tiff_file ;;
  let bounds := bounds dataset in
  if in_bounds bounds coordinate then
    let '(row, col) := index dataset (snd coordinate) (fst coordinate) in
    try_except
      (window <- read dataset 1
                   ((row, row + window_size), (col, col + window_size))
                   None nearest ;;
       filtered <- generic_filter window (lee_filter_single_pixel window_size)
                     window_size ;;
       Return (Some filtered))
      [IndexError]
      (Return filtered_value)
  else Return filtered_value.

End Raster.

Arguments crs {CRS} _.
Arguments transform {CRS} _.
Arguments width {CRS} _.
Arguments height {CRS} _.
Arguments bounds {CRS} _.
Arguments index {CRS} _ _ _.
Arguments read {CRS} _ _ _ _ _.
Arguments mkDataset {CRS}.

(** ** The specification's reading of the zone formula *)

(** Written from the specification: [floor((longitude + 180) / 6) + 1],
    reset to 1 above 60.  Compared with [get_utm_zone] below. *)
Definition utm_zone_floor (longitude : Q) : Z :=
  let zone := Qfloor ((longitude + 180) / 6) + 1 in
  if 60 <? zone then 1 else zone.

(** The reset of a zone above 60. *)
Definition wrap_zone (zone : Z) : Z := if 60 <? zone then 1 else zone.

(** Truncation toward zero, stated through floor and ceiling. *)
Definition Qtruncate (x : Q) : Z :=
  if Qle_bool 0 x then Qfloor x else Qceiling x.

(** Written from the specification, section 4.3: the output is the local
    mean when the local variance is zero, and otherwise
    [center_value * local_variance / (local_variance + 1)], over the
    neighbourhood [w].  Compared with [lee_filter_single_pixel] below. *)
Definition lee_rule (center_value : num) (w : list num) : num :=
  if n_eq_zero (np_var w) then np_mean w
  else ndiv (nmul center_value (np_var w)) (nadd (np_var w) (Fin 1)).

(** The grid [generic_filter] builds when the callback is the rule above:
    one output cell per input cell, row by row. *)
Definition lee_filtered (size : Z) (a : grid) : grid :=
  map (fun '(i, row) =>
         map (fun j => lee_rule (pad_get a i j) (footprint size a i j))
             (zrange (len row)))
      (combine (zrange (len a)) a).

(** The cell [(i, j)] of a two-dimensional array. *)
Definition cell (a : grid) (i j : nat) : num := nth j (nth i a []) NaN.

(** The sum of a list of rationals, accumulated from the left as [nsum] does. *)
Definition Qsum (qs : list Q) : Q := fold_left Qplus qs 0%Q.


(** ** An in-memory raster used to run the functions *)

Module Fixture.

(** CRSs are named by their EPSG code. *)
Definition CRS : Type := Z.

Definition slice {A : Type} (lo hi : Z) (l : list A) : list A :=
  firstn (Z.to_nat (hi - Z.max 0 lo)) (skipn (Z.to_nat lo) l).

(** A window of the stored band, cropped to the extent; any
    [out_shape] is served at the stored resolution. *)
Definition mem_read (band1 : grid) (band : Z) (w : Window)
    (out_shape : option (Z * Z * Z)) (r : Resampling) : result grid :=
  let '((r0, r1), (c0, c1)) := w in
  if band =? 1 then Return (map (slice c0 c1) (slice r0 r1 band1))
  else Raise IndexError.

(** North-up raster, one unit per pixel, upper-left corner at [(0, h)]. *)
Definition mem_dataset (band1 : grid) : Dataset CRS :=
  let h := len band1 in
  let w := len (nth 0 band1 []) in
  mkDataset 4326 (mkAffine 1 0 0 0 (-1) (inject_Z h)) w h
    (mkBounds 0 0 (inject_Z w) (inject_Z h))
    (fun x y => (Qfloor (inject_Z h - y), Qfloor x))
    (mem_read band1).

Definition n (z : Z) : num := Fin (inject_Z z).

Definition band4 : grid :=
  [ [n 11; n 12; n 13; n 14];
    [n 21; n 22; n 23; n 24];
    [n 31; n 32; n 33; n 34];
    [n 41; n 42; n 43; n 44] ].

Definition band2 : grid := [ [n 1; n 2]; [n 3; n 4] ].


Definition open (g : grid) (path : string) : result (Dataset CRS) :=
  Return (mem_dataset g).

(** A raster with a missing cell. *)
Definition band_nan : grid := [ [n 1; NaN]; [n 3; n 4] ].

(** A 4 x 4 raster whose every read fails with [e]. *)
Definition failing_dataset (e : exn) : Dataset CRS :=
  mkDataset 4326 (mkAffine 1 0 0 0 (-1) 4) 4 4 (mkBounds 0 0 4 4)
    (fun x y => (Qfloor (4 - y), Qfloor x))
    (fun _ _ _ _ => Raise e).

Definition open_failing (e : exn) (path : string) : result (Dataset CRS) :=
  Return (failing_dataset e).

Definition from_epsg (code : Z) : result CRS := Return code.

(** The projection leaves coordinates as they are. *)
Definition project (src dst : CRS) (x y : Q) : result (Q * Q) := Return (x, y).

(** The resampling capability grants the requested shape on the
    raster's own transform. *)
Definition default_transform (g : grid) (src dst : CRS) (w h : Z)
    (b : BoundingBox) (dst_width dst_height : Z) : result (Affine * Z * Z) :=
  Return (transform (mem_dataset g), dst_width, dst_height).

Definition resample (g : grid) :=
  resample_and_extract_value CRS (open g) from_epsg project (default_transform g).

Definition extract (g : grid) := extract_values_at_coordinates CRS (open g).

Definition lee (g : grid) := lee_filter CRS (open g).

End Fixture.

(** * Properties *)

(** ** Truncation *)

Lemma py_int_nonneg (x : Q) : (0 <= x)%Q -> py_int x = Qfloor x.
Proof.
  destruct x as [p q]; unfold Qle, py_int, Qfloor; simpl; intros H.
  apply Z.quot_div_nonneg; lia.
Qed.

Lemma py_int_nonpos (x : Q) : (x <= 0)%Q -> py_int x = Qceiling x.
Proof.
  destruct x as [p q]; unfold Qle, py_int, Qceiling, Qfloor; simpl; intros H.
  replace p with (- (- p)) at 1 by lia.
  rewrite Z.quot_opp_l by lia.
  f_equal. apply Z.quot_div_nonneg; lia.
Qed.

Lemma py_int_truncates (x : Q) : py_int x = Qtruncate x.
Proof.
  unfold Qtruncate. destruct (Qle_bool 0 x) eqn:E.
  - apply py_int_nonneg, Qle_bool_iff, E.
  - apply py_int_nonpos. apply Qlt_le_weak, Qnot_le_lt.
    intros H. apply Qle_bool_iff in H. congruence.
Qed.

Lemma Qdiv_nonneg (x y : Q) : (0 <= x)%Q -> (0 < y)%Q -> (0 <= x / y)%Q.
Proof.
  intros Hx Hy. unfold Qdiv. apply Qmult_le_0_compat; [assumption|].
  apply Qlt_le_weak, Qinv_lt_0_compat, Hy.
Qed.

(** ** CoordinateResolver *)

Lemma zone_quotient_bounds (L : Q) :
  (-180 <= L)%Q -> (L < 180)%Q ->
  (0 <= (L + 180) / 6)%Q /\ ((L + 180) / 6 < 60)%Q.
Proof.
  intros Hlo Hhi. split.
  - apply Qdiv_nonneg; lra.
  - apply Qlt_shift_div_r; lra.
Qed.

Lemma Qfloor_bounds (x : Q) (lo hi : Z) :
  (inject_Z lo <= x)%Q -> (x < inject_Z hi)%Q -> lo <= Qfloor x < hi.
Proof.
  intros Hlo Hhi. split.
  - rewrite <- (Qfloor_Z lo). apply Qfloor_resp_le, Hlo.
  - rewrite Zlt_Qlt. eapply Qle_lt_trans; [apply Qfloor_le | exact Hhi].
Qed.

Lemma get_utm_zone_floor (L : Q) :
  (-180 <= L)%Q -> get_utm_zone L = utm_zone_floor L.
Proof.
  intros Hlo. unfold get_utm_zone, utm_zone_floor.
  rewrite py_int_nonneg; [reflexivity|].
  apply Qdiv_nonneg; lra.
Qed.

Lemma get_utm_zone_in_range (L : Q) :
  (-180 <= L)%Q -> (L < 180)%Q -> 1 <= get_utm_zone L <= 60.
Proof.
  intros Hlo Hhi. rewrite get_utm_zone_floor by assumption.
  destruct (zone_quotient_bounds L Hlo Hhi) as [H0 H60].
  pose proof (Qfloor_bounds ((L + 180) / 6) 0 60 H0 H60) as Hf.
  unfold utm_zone_floor.
  destruct (60 <? Qfloor ((L + 180) / 6) + 1) eqn:E; [lia|].
  apply Z.ltb_ge in E. lia.
Qed.

(** C3, counterexample.  West of -180 the quotient is negative and [int]
    rounds it up: longitude -183 gives zone 1, the floor formula gives 0. *)
Lemma get_utm_zone_not_floor :
  get_utm_zone (-183 # 1) = 1 /\ utm_zone_floor (-183 # 1) = 0.
Proof. split; reflexivity. Qed.

(** C3, amended.  [get_utm_zone] truncates [(longitude + 180) / 6] toward
    zero, adds 1 and resets to 1 above 60; from longitude -180 on this is the
    floor formula; for longitudes in [-180, 180) the zone lies in [1, 60];
    [get_utm_zone 179.9999] is 60 and [get_utm_zone (-180)] is 1. *)
Theorem get_utm_zone_truncating :
  (forall L, get_utm_zone L = wrap_zone (Qtruncate ((L + 180) / 6) + 1)) /\
  (forall L, (-180 <= L)%Q -> get_utm_zone L = utm_zone_floor L) /\
  (forall L, (-180 <= L)%Q -> (L < 180)%Q -> 1 <= get_utm_zone L <= 60) /\
  get_utm_zone (1799999 # 10000) = 60 /\
  get_utm_zone (-180 # 1) = 1.
Proof.
  split; [|split; [|split; [|split]]].
  - intros L. unfold get_utm_zone, wrap_zone. now rewrite py_int_truncates.
  - exact get_utm_zone_floor.
  - exact get_utm_zone_in_range.
  - reflexivity.
  - reflexivity.
Qed.

Lemma get_utm_zone_truncating_witness :
  get_utm_zone (7 # 2) = utm_zone_floor (7 # 2) /\ 1 <= get_utm_zone (7 # 2) <= 60.
Proof.
  destruct get_utm_zone_truncating as (_ & Hfloor & Hrange & _).
  split.
  - apply Hfloor. unfold Qle; simpl; lia.
  - apply Hrange; [unfold Qle | unfold Qlt]; simpl; lia.
Defined.

(** C4, counterexample.  With hemisphere ['X'] the function fails, but with
    [UnboundLocalError]: no [UnsupportedHemisphereError] is raised. *)
Lemma get_epsg_code_other_hemisphere :
  "X"%string <> "N"%string /\ "X"%string <> "S"%string /\
  get_epsg_code 31 "X" = Raise UnboundLocalError /\
  get_epsg_code 31 "X" <> Raise (Exn "UnsupportedHemisphereError").
Proof. repeat split; discriminate. Qed.

(** C4, amended.  For every hemisphere argument other than ['N'] and ['S'],
    [get_epsg_code] returns no value: it fails with [UnboundLocalError]. *)
Theorem get_epsg_code_unbound (utm_zone : Z) (hemisphere : string) :
  hemisphere <> "N"%string -> hemisphere <> "S"%string ->
  get_epsg_code utm_zone hemisphere = Raise UnboundLocalError.
Proof.
  intros HN HS. unfold get_epsg_code.
  apply String.eqb_neq in HN, HS. now rewrite HN, HS.
Qed.

Lemma get_epsg_code_unbound_witness :
  get_epsg_code 31 "E" = Raise UnboundLocalError.
Proof. apply get_epsg_code_unbound; discriminate. Defined.

Lemma hemisphere_of_north (latitude : Q) :
  hemisphere_of latitude = "N"%string <-> (0 <= latitude)%Q.
Proof.
  unfold hemisphere_of. rewrite <- Qle_bool_iff.
  destruct (Qle_bool 0 latitude); split; congruence.
Qed.

Lemma hemisphere_of_south (latitude : Q) :
  hemisphere_of latitude = "S"%string <-> (latitude < 0)%Q.
Proof.
  unfold hemisphere_of.
  destruct (Qle_bool 0 latitude) eqn:E; split; intros H; try congruence.
  - apply Qle_bool_iff in E. apply Qlt_not_le in H. contradiction.
  - apply Qnot_le_lt. intros H'. apply Qle_bool_iff in H'. congruence.
Qed.

(** C9.  [get_epsg_code] returns [32600 + zone] for ['N'] and [32700 + zone]
    for ['S']; the caller passes ['N'] exactly when the latitude is at least
    0 and ['S'] otherwise; zone 31 gives 32631 and 32731. *)
Theorem get_epsg_code_hemispheres :
  (forall zone, get_epsg_code zone "N" = Return (32600 + zone)) /\
  (forall zone, get_epsg_code zone "S" = Return (32700 + zone)) /\
  (forall latitude, hemisphere_of latitude = "N"%string <-> (0 <= latitude)%Q) /\
  (forall latitude, hemisphere_of latitude = "S"%string <-> (latitude < 0)%Q) /\
  get_epsg_code 31 "N" = Return 32631 /\
  get_epsg_code 31 "S" = Return 32731.
Proof.
  repeat split; try reflexivity;
    try (apply hemisphere_of_north); try (apply hemisphere_of_south).
Qed.

(** ** ReprojectingSampler *)



Lemma np_axis_raises (n i : Z) (e : exn) : np_axis n i = Raise e -> e = IndexError.
Proof.
  unfold np_axis.
  destruct ((0 <=? i) && (i <? n)); [discriminate|].
  destruct ((- n <=? i) && (i <? 0)); [discriminate|].
  now intros [= <-].
Qed.

Lemma np_index2_raises (a : grid) (r c : Z) (e : exn) :
  np_index2 a r c = Raise e -> e = IndexError.
Proof.
  unfold np_index2.
  destruct (np_axis (len a) r) as [ri|e1] eqn:Er; simpl.
  - destruct (np_axis (len (nth ri a [])) c) as [ci|e2] eqn:Ec; simpl.
    + discriminate.
    + intros [= <-]. eapply np_axis_raises, Ec.
  - intros [= <-]. eapply np_axis_raises, Er.
Qed.

(** What lines 64-73 leave in [values]: the looked-up cell, or [None] when
    the lookup failed or the cell is NaN. *)
Lemma extract_pixel_appends (values : list (option num)) (data : grid)
    (pixel_col pixel_row : Q) :
  extract_pixel values data pixel_col pixel_row =
    Return (values ++
      [match np_index2 data (py_int pixel_row) (py_int pixel_col) with
       | Return v => if isnan v then None else Some v
       | Raise _ => None
       end]).
Proof.
  unfold extract_pixel.
  destruct (np_index2 data (py_int pixel_row) (py_int pixel_col)) as [v|e] eqn:E; simpl.
  - destruct (isnan v); reflexivity.
  - apply np_index2_raises in E. subst e. reflexivity.
Qed.



Section Sampler.

Variable CRS : Type.
Variable rasterio_open : string -> result (Dataset CRS).
Variable from_epsg : Z -> result CRS.
Variable transformer_transform : CRS -> CRS -> Q -> Q -> result (Q * Q).
Variable calculate_default_transform :
  CRS -> CRS -> Z -> Z -> BoundingBox -> Z -> Z -> result (Affine * Z * Z).

Local Abbreviation sample :=
  (resample_and_extract_value CRS rasterio_open from_epsg transformer_transform
     calculate_default_transform).

(** Once the capabilities have answered, the call is the inversion of the
    returned transform followed by the guarded lookup. *)
Lemma resample_after_capabilities (tiff_file : string) (coordinate : Q * Q)
    (old_resolution_meters new_resolution_meters : Q)
    (dataset : Dataset CRS) (epsg_code : Z) (dst_crs : CRS) (easting northing : Q)
    (req_width req_height : Z) (dst_transform : Affine) (dst_width dst_height : Z)
    (data : grid) :
  rasterio_open tiff_file = Return dataset ->
  get_epsg_code (get_utm_zone (snd coordinate)) (hemisphere_of (fst coordinate))
    = Return epsg_code ->
  from_epsg epsg_code = Return dst_crs ->
  transformer_transform (crs dataset) dst_crs (snd coordinate) (fst coordinate)
    = Return (easting, northing) ->
  requested_shape CRS dataset old_resolution_meters new_resolution_meters
    = Return (req_width, req_height) ->
  calculate_default_transform (crs dataset) dst_crs (width dataset) (height dataset)
    (bounds dataset) req_width req_height
    = Return (dst_transform, dst_width, dst_height) ->
  read dataset 1 ((0, dst_height), (0, dst_width))
    (Some (1, dst_height, dst_width)) bilinear = Return data ->
  sample tiff_file coordinate old_resolution_meters new_resolution_meters =
    values <-
      ('(pixel_col, pixel_row) <- pixel_coordinates dst_transform easting northing ;;
       extract_pixel [] data pixel_col pixel_row) ;;
    py_getitem values 0.
Proof.
  intros Hopen Hcode Hcrs Hproj Hreq Hcdt Hread.
  unfold resample_and_extract_value.
  rewrite Hopen; simpl. rewrite Hcode; simpl. rewrite Hcrs; simpl.
  rewrite Hproj; simpl. rewrite Hreq; simpl. rewrite Hcdt; simpl.
  rewrite Hread; simpl. reflexivity.
Qed.


End Sampler.


(** C1, failing inputs.  On the 2 x 2 raster with extent [0, 2] x [0, 2] the
    point (lat 3, lon -1) lies outside the extent, its pixel address is
    row -1, column -1, and NumPy's wrap-around of negative indices returns
    the last cell, 4, where [None] is documented.  The point
    (lat 5/2, lon 1/2), also outside, has row -1/2, which [int] truncates to
    row 0: the call returns cell 1. *)
Theorem resample_outside_extent_returns_value :
  in_bounds (bounds (Fixture.mem_dataset Fixture.band2)) (3, -1)%Q = false /\
  Fixture.resample Fixture.band2 "r.tif" (3, -1)%Q 100 100
    = Return (Some (Fixture.n 4)) /\
  in_bounds (bounds (Fixture.mem_dataset Fixture.band2)) (5 # 2, 1 # 2)%Q = false /\
  Fixture.resample Fixture.band2 "r.tif" (5 # 2, 1 # 2)%Q 100 100
    = Return (Some (Fixture.n 1)).
Proof. repeat split; vm_compute; reflexivity. Qed.

(** ** Nearest-pixel extractor *)

(** C10.  Whenever [extract_values_at_coordinates] returns, the list it
    returns has exactly one element, a pixel value or [None]. *)
Theorem extract_values_singleton (CRS : Type)
    (rasterio_open : string -> result (Dataset CRS))
    (tiff_file : string) (coordinate : Q * Q) (values : list (option num)) :
  extract_values_at_coordinates CRS rasterio_open tiff_file coordinate = Return values ->
  List.length values = 1%nat /\
  (values = [None] \/ exists value : num, values = [Some value]).
Proof.
  unfold extract_values_at_coordinates.
  destruct (rasterio_open tiff_file) as [dataset|e]; [|discriminate]. cbn [bind].
  destruct (in_bounds (bounds dataset) coordinate).
  - destruct (index dataset (snd coordinate) (fst coordinate)) as [row col].
    unfold try_except.
    destruct (read dataset 1 (row, row + 1, (col, col + 1)) None nearest) as [arr|e];
      cbn [bind].
    + destruct (np_index2 arr 0 0) as [value|e]; cbn [bind app].
      * intros [= <-]. split; [reflexivity|]. right. now exists value.
      * destruct (existsb (exn_eqb e) [IndexError]); [|discriminate].
        intros [= <-]. split; [reflexivity|]. now left.
    + destruct (existsb (exn_eqb e) [IndexError]); [|discriminate].
      intros [= <-]. split; [reflexivity|]. now left.
  - intros [= <-]. split; [reflexivity|]. now left.
Qed.

Lemma extract_values_singleton_witness :
  List.length [Some (Fixture.n 22)] = 1%nat /\
  ([Some (Fixture.n 22)] = [None] \/
   exists value : num, [Some (Fixture.n 22)] = [Some value]).
Proof.
  apply (extract_values_singleton Fixture.CRS (Fixture.open Fixture.band4)
           "r.tif" (5 # 2, 3 # 2)%Q).
  reflexivity.
Defined.

(** ** AdaptiveWindowFilter *)

Lemma in_bounds_outside (b : BoundingBox) (coordinate : Q * Q) :
  (snd coordinate < left b \/ right b < snd coordinate \/
   fst coordinate < bottom b \/ top b < fst coordinate)%Q ->
  in_bounds b coordinate = false.
Proof.
  intros H. unfold in_bounds.
  apply not_true_is_false. intros Hin.
  rewrite !andb_true_iff, !Qle_bool_iff in Hin.
  destruct Hin as [[H1 H2] [H3 H4]].
  destruct H as [H|[H|[H|H]]]; apply Qlt_not_le in H; contradiction.
Qed.

(** C8.  For a point strictly outside [raster.bounds], longitude against
    left and right and latitude against bottom and top, [lee_filter]
    returns [None]. *)
Theorem lee_filter_outside_bounds (CRS : Type)
    (rasterio_open : string -> result (Dataset CRS))
    (window_size : Z) (tiff_file : string) (coordinate : Q * Q)
    (dataset : Dataset CRS) :
  rasterio_open tiff_file = Return dataset ->
  (snd coordinate < left (bounds dataset) \/
   right (bounds dataset) < snd coordinate \/
   fst coordinate < bottom (bounds dataset) \/
   top (bounds dataset) < fst coordinate)%Q ->
  lee_filter CRS rasterio_open window_size tiff_file coordinate = Return None.
Proof.
  intros Hopen Hout. unfold lee_filter. rewrite Hopen. cbn [bind].
  now rewrite (in_bounds_outside _ _ Hout).
Qed.

Lemma lee_filter_outside_bounds_witness :
  Fixture.lee Fixture.band4 3 "r.tif" (999, 999)%Q = Return None.
Proof.
  apply (lee_filter_outside_bounds Fixture.CRS (Fixture.open Fixture.band4) 3
           "r.tif" (999, 999)%Q (Fixture.mem_dataset Fixture.band4)).
  - reflexivity.
  - right. left. reflexivity.
Defined.

Lemma zrange_length (n : Z) : List.length (zrange n) = Z.to_nat n.
Proof. unfold zrange. now rewrite length_map, length_seq. Qed.

Lemma zrange_nth (n : Z) (k : nat) (d : Z) :
  (k < Z.to_nat n)%nat -> nth k (zrange n) d = Z.of_nat k.
Proof.
  intros Hk. unfold zrange.
  rewrite (nth_indep _ d (Z.of_nat 0)) by (now rewrite length_map, length_seq).
  rewrite map_nth, seq_nth by assumption. reflexivity.
Qed.

Lemma zrange_len (A : Type) (l : list A) : zrange (len l) = map Z.of_nat (seq 0 (List.length l)).
Proof. unfold zrange, len. now rewrite Nat2Z.id. Qed.

Lemma mapM_pure (A B : Type) (f : A -> result B) (g : A -> B) (l : list A) :
  (forall x, In x l -> f x = Return (g x)) -> mapM f l = Return (map g l).
Proof.
  induction l as [|x xs IH]; intros Hf; [reflexivity|].
  cbn [mapM map]. rewrite (Hf x) by (now left). cbn [bind].
  rewrite IH by (intros y Hy; apply Hf; now right). reflexivity.
Qed.

Lemma chunks_flat_map (A : Type) (f : A -> list num) (cols : nat) (l : list A) :
  (forall x, In x l -> List.length (f x) = cols) ->
  chunks (List.length l) cols (flat_map f l) = map f l.
Proof.
  induction l as [|x xs IH]; intros Hlen; [reflexivity|].
  cbn [List.length chunks flat_map map].
  assert (Hx : List.length (f x) = cols) by (apply Hlen; now left).
  rewrite firstn_app, skipn_app. rewrite <- Hx.
  rewrite Nat.sub_diag, firstn_all, skipn_all. cbn [firstn skipn app].
  rewrite app_nil_r, Hx, IH by (intros y Hy; apply Hlen; now right). reflexivity.
Qed.

Lemma flat_map_length_const (A B : Type) (f : A -> list B) (cols : nat) (l : list A) :
  (forall x, In x l -> List.length (f x) = cols) ->
  List.length (flat_map f l) = (List.length l * cols)%nat.
Proof.
  induction l as [|x xs IH]; intros Hlen; [reflexivity|].
  cbn [flat_map List.length]. rewrite length_app, Hlen by (now left).
  rewrite IH by (intros y Hy; apply Hlen; now right). lia.
Qed.

Section Footprint.

Variable size : Z.
Hypothesis size_pos : 0 < size.
Variable a : grid.
Variables i j : Z.

Local Abbreviation line di :=
  (map (fun dj => pad_get a (i + di - size / 2) (j + dj - size / 2)) (zrange size)).

Lemma line_length (di : Z) : List.length (line di) = Z.to_nat size.
Proof. now rewrite length_map, zrange_length. Qed.

(** The callback always receives [size * size] values. *)
Lemma footprint_length : len (footprint size a i j) = size * size.
Proof.
  unfold len, footprint.
  rewrite (flat_map_length_const _ _ _ (Z.to_nat size))
    by (intros; apply line_length).
  rewrite zrange_length. lia.
Qed.

Lemma footprint_reshape :
  np_reshape size size (footprint size a i j) = Return (map (fun di => line di) (zrange size)).
Proof.
  unfold np_reshape. rewrite footprint_length.
  replace (0 <=? size) with true by (symmetry; apply Z.leb_le; lia).
  rewrite Z.eqb_refl. cbn [andb]. f_equal.
  unfold footprint. rewrite <- (zrange_length size) at 1.
  apply chunks_flat_map. intros; apply line_length.
Qed.

Lemma half_index : np_axis size (size / 2) = Return (Z.to_nat (size / 2)).
Proof.
  unfold np_axis.
  assert (0 <= size / 2 < size) by (split; [apply Z.div_pos | apply Z.div_lt_upper_bound]; lia).
  replace (0 <=? size / 2) with true by (symmetry; apply Z.leb_le; lia).
  replace (size / 2 <? size) with true by (symmetry; apply Z.ltb_lt; lia).
  reflexivity.
Qed.

(** After the reshape, entry [size // 2, size // 2] is the input cell the
    neighbourhood is centred on. *)
Lemma footprint_center :
  np_index2 (map (fun di => line di) (zrange size)) (size / 2) (size / 2)
    = Return (pad_get a i j).
Proof.
  assert (Hh : 0 <= size / 2 < size)
    by (split; [apply Z.div_pos | apply Z.div_lt_upper_bound]; lia).
  assert (Hk : (Z.to_nat (size / 2) < Z.to_nat size)%nat) by lia.
  unfold np_index2, len. rewrite length_map, zrange_length, Z2Nat.id by lia.
  rewrite half_index. cbn [bind].
  rewrite (nth_indep _ [] (line 0)) by (now rewrite length_map, zrange_length).
  rewrite (map_nth (fun di => line di)), zrange_nth by assumption.
  rewrite line_length, !Z2Nat.id by lia. rewrite half_index. cbn [bind].
  rewrite (nth_indep _ NaN (pad_get a (i + size / 2 - size / 2) (j + 0 - size / 2)))
    by (now rewrite line_length).
  rewrite (map_nth (fun dj => pad_get a (i + size / 2 - size / 2) (j + dj - size / 2))).
  rewrite zrange_nth, Z2Nat.id by lia.
  f_equal. f_equal; lia.
Qed.

(** On a neighbourhood handed over by [generic_filter], the callback
    returns, and its value is the rule of the specification with the
    centre cell as [center_value]. *)
Lemma lee_filter_single_pixel_footprint :
  lee_filter_single_pixel size (footprint size a i j)
    = Return (lee_rule (pad_get a i j) (footprint size a i j)).
Proof.
  unfold lee_filter_single_pixel, lee_rule.
  rewrite footprint_reshape. cbn [bind].
  destruct (n_eq_zero (np_var (footprint size a i j))); [reflexivity|].
  rewrite footprint_center. reflexivity.
Qed.

End Footprint.

Lemma generic_filter_lee (size : Z) (a : grid) :
  0 < size ->
  generic_filter a (lee_filter_single_pixel size) size = Return (lee_filtered size a).
Proof.
  intros Hpos. unfold generic_filter, lee_filtered.
  replace (size =? 0) with false by (symmetry; apply Z.eqb_neq; lia).
  replace (size <? 0) with false by (symmetry; apply Z.ltb_ge; lia).
  apply mapM_pure. intros [i row] _.
  apply mapM_pure. intros j _.
  now apply lee_filter_single_pixel_footprint.
Qed.

Lemma indexed_rows_nth (a : grid) (i : nat) :
  (i < List.length a)%nat ->
  nth i (combine (zrange (len a)) a) (0, []) = (Z.of_nat i, nth i a []).
Proof.
  intros Hi. rewrite combine_nth by (rewrite zrange_length; unfold len; lia).
  rewrite zrange_nth by (unfold len; lia). reflexivity.
Qed.

Lemma indexed_rows_length (a : grid) :
  List.length (combine (zrange (len a)) a) = List.length a.
Proof. rewrite length_combine, zrange_length. unfold len. lia. Qed.


Lemma lee_filtered_row (size : Z) (a : grid) (i : nat) :
  (i < List.length a)%nat ->
  nth i (lee_filtered size a) [] =
    map (fun j => lee_rule (pad_get a (Z.of_nat i) j) (footprint size a (Z.of_nat i) j))
        (zrange (len (nth i a []))).
Proof.
  intros Hi. unfold lee_filtered.
  set (F := fun p : Z * list num => let '(i0, row) := p in
    map (fun j => lee_rule (pad_get a i0 j) (footprint size a i0 j)) (zrange (len row))).
  rewrite (nth_indep _ [] (F (0, [])))
    by (now rewrite length_map, indexed_rows_length).
  rewrite (map_nth F), indexed_rows_nth by assumption. reflexivity.
Qed.


Lemma pad_get_inside (a : grid) (i j : nat) :
  (j < List.length (nth i a []))%nat ->
  pad_get a (Z.of_nat i) (Z.of_nat j) = cell a i j.
Proof.
  intros Hj. unfold pad_get, cell.
  replace (Z.of_nat i <? 0) with false by (symmetry; apply Z.ltb_ge; lia).
  replace (Z.of_nat j <? 0) with false by (symmetry; apply Z.ltb_ge; lia).
  cbn [orb]. rewrite !Nat2Z.id. now apply nth_indep.
Qed.


Lemma lee_filtered_cell (size : Z) (a : grid) (i j : nat) :
  (i < List.length a)%nat -> (j < List.length (nth i a []))%nat ->
  cell (lee_filtered size a) i j =
    lee_rule (cell a i j) (footprint size a (Z.of_nat i) (Z.of_nat j)).
Proof.
  intros Hi Hj. unfold cell at 1. rewrite lee_filtered_row by assumption.
  set (G := fun j0 => lee_rule (pad_get a (Z.of_nat i) j0)
                        (footprint size a (Z.of_nat i) j0)).
  rewrite (nth_indep _ NaN (G 0))
    by (rewrite length_map, zrange_length; unfold len; lia).
  rewrite (map_nth G), zrange_nth by (unfold len; lia).
  unfold G. now rewrite pad_get_inside.
Qed.

Lemma nth_flat_map_const (A B : Type) (f : A -> list B) (cols : nat)
    (l : list A) (k m : nat) (d0 : A) (d : B) :
  (forall x, List.length (f x) = cols) ->
  (k < List.length l)%nat -> (m < cols)%nat ->
  nth (k * cols + m) (flat_map f l) d = nth m (f (nth k l d0)) d.
Proof.
  intros Hlen. revert k. induction l as [|x xs IH]; intros k Hk Hm.
  - cbn in Hk. lia.
  - cbn [flat_map]. destruct k as [|k].
    + cbn [Nat.mul Nat.add nth]. apply app_nth1. now rewrite Hlen.
    + rewrite app_nth2 by (rewrite Hlen; lia).
      rewrite Hlen. replace (S k * cols + m - cols)%nat with (k * cols + m)%nat by lia.
      cbn [nth]. apply IH; [cbn in Hk; lia | assumption].
Qed.

(** Entry [(di, dj)] of the neighbourhood of cell [(i, j)] is the input at
    offset [(di - size // 2, dj - size // 2)], zero-padded. *)
Lemma footprint_nth (size : Z) (a : grid) (i j : Z) (di dj : nat) :
  (di < Z.to_nat size)%nat -> (dj < Z.to_nat size)%nat ->
  nth (di * Z.to_nat size + dj) (footprint size a i j) NaN =
    pad_get a (i + Z.of_nat di - size / 2) (j + Z.of_nat dj - size / 2).
Proof.
  intros Hdi Hdj. unfold footprint.
  rewrite (nth_flat_map_const _ _ _ (Z.to_nat size) _ _ _ 0);
    [| intros; now rewrite length_map, zrange_length
     | now rewrite zrange_length | assumption].
  rewrite zrange_nth by assumption.
  rewrite (nth_indep _ NaN
             (pad_get a (i + Z.of_nat di - size / 2) (j + 0 - size / 2)))
    by (now rewrite length_map, zrange_length).
  rewrite (map_nth (fun dj0 => pad_get a (i + Z.of_nat di - size / 2) (j + dj0 - size / 2))).
  now rewrite zrange_nth.
Qed.

Section Filter.

Variable CRS : Type.
Variable rasterio_open : string -> result (Dataset CRS).
Variable window_size : Z.
Variable tiff_file : string.
Variable coordinate : Q * Q.
Variable dataset : Dataset CRS.
Variables row col : Z.
Variable window : grid.

Hypothesis size_pos : 0 < window_size.
Hypothesis opened : rasterio_open tiff_file = Return dataset.
Hypothesis inside : in_bounds (bounds dataset) coordinate = true.
Hypothesis indexed : index dataset (snd coordinate) (fst coordinate) = (row, col).
Hypothesis was_read :
  read dataset 1 ((row, row + window_size), (col, col + window_size)) None nearest
    = Return window.

Lemma lee_filter_in_bounds :
  lee_filter CRS rasterio_open window_size tiff_file coordinate
    = Return (Some (lee_filtered window_size window)).
Proof.
  unfold lee_filter. rewrite opened. cbn [bind].
  rewrite inside, indexed, was_read. cbn [bind].
  rewrite generic_filter_lee by exact size_pos. reflexivity.
Qed.



End Filter.



(** * Further properties of the module *)

(** ** Truncation, continued *)

Lemma Qtruncate_comp (x y : Q) : (x == y)%Q -> Qtruncate x = Qtruncate y.
Proof.
  intros Heq. unfold Qtruncate.
  destruct (Qle_bool 0 x) eqn:Ex, (Qle_bool 0 y) eqn:Ey.
  - now rewrite Heq.
  - apply Qle_bool_iff in Ex. rewrite Heq in Ex. apply Qle_bool_iff in Ex. congruence.
  - apply Qle_bool_iff in Ey. rewrite <- Heq in Ey. apply Qle_bool_iff in Ey. congruence.
  - now rewrite Heq.
Qed.

Lemma py_int_comp (x y : Q) : (x == y)%Q -> py_int x = py_int y.
Proof. intros H. rewrite !py_int_truncates. now apply Qtruncate_comp. Qed.

Lemma py_int_inject_Z (z : Z) : py_int (inject_Z z) = z.
Proof. unfold py_int, inject_Z; simpl. apply Z.quot_1_r. Qed.

Lemma py_int_le (x y : Q) : (x <= y)%Q -> py_int x <= py_int y.
Proof.
  intros Hxy. rewrite !py_int_truncates. unfold Qtruncate.
  destruct (Qle_bool 0 x) eqn:Ex, (Qle_bool 0 y) eqn:Ey.
  - now apply Qfloor_resp_le.
  - apply Qle_bool_iff in Ex.
    assert (Hy : (0 <= y)%Q) by (eapply Qle_trans; eassumption).
    apply Qle_bool_iff in Hy. congruence.
  - assert (Hx : (x <= 0)%Q).
    { apply Qlt_le_weak, Qnot_le_lt. intros H. apply Qle_bool_iff in H. congruence. }
    apply Qle_bool_iff in Ey.
    apply Z.le_trans with 0.
    + rewrite <- (Qceiling_Z 0). now apply Qceiling_resp_le.
    + rewrite <- (Qfloor_Z 0). now apply Qfloor_resp_le.
  - now apply Qceiling_resp_le.
Qed.


(** ** CoordinateResolver, continued *)

(** X1.  From longitude 180 on, the computed zone exceeds 60 and is reset: the
    result is zone 1. *)
Theorem get_utm_zone_east_wraps (L : Q) :
  (180 <= L)%Q -> get_utm_zone L = 1.
Proof.
  intros HL. unfold get_utm_zone.
  assert (H60 : 60 <= py_int ((L + 180) / 6)).
  { rewrite <- (py_int_inject_Z 60). apply py_int_le.
    apply Qle_shift_div_l; [reflexivity|]. unfold inject_Z. lra. }
  replace (60 <? py_int ((L + 180) / 6) + 1) with true
    by (symmetry; apply Z.ltb_lt; lia).
  reflexivity.
Qed.

Lemma get_utm_zone_east_wraps_witness : get_utm_zone 999 = 1.
Proof. apply get_utm_zone_east_wraps. unfold Qle; simpl; lia. Defined.

(** X2.  The result never exceeds 60, and it is a zone number (at least 1)
    exactly for longitudes above -186: further west the result is 0 or
    negative. *)
Theorem get_utm_zone_bounds (L : Q) :
  get_utm_zone L <= 60 /\ (1 <= get_utm_zone L <-> (-186 < L)%Q).
Proof.
  unfold get_utm_zone.
  set (x := ((L + 180) / 6)%Q).
  assert (Hcases : ((-186 < L)%Q /\ 0 <= py_int x) \/ ((L <= -186)%Q /\ py_int x <= -1)).
  { destruct (Qlt_le_dec (-186) L) as [Hgt|Hle]; [left|right]; split; try assumption.
    - rewrite py_int_truncates. unfold Qtruncate.
      destruct (Qle_bool 0 x) eqn:E.
      + apply Qle_bool_iff in E. rewrite <- (Qfloor_Z 0). now apply Qfloor_resp_le.
      + assert (Hx : (-1 < x)%Q) by (apply Qlt_shift_div_l; [reflexivity|]; lra).
        assert (Hc : (inject_Z (-1) < inject_Z (Qceiling x))%Q)
          by (eapply Qlt_le_trans; [exact Hx | apply Qle_ceiling]).
        rewrite <- Zlt_Qlt in Hc. lia.
    - rewrite <- (py_int_inject_Z (-1)). apply py_int_le.
      apply Qle_shift_div_r; [reflexivity|]. unfold inject_Z. lra. }
  destruct (60 <? py_int x + 1) eqn:E.
  - apply Z.ltb_lt in E. split; [lia|]. split; intros _; [|lia].
    destruct Hcases as [[H _]|[_ H]]; [exact H | lia].
  - apply Z.ltb_ge in E. split; [exact E|]. split; intros H.
    + destruct Hcases as [[H' _]|[_ H']]; [exact H' | lia].
    + destruct Hcases as [[_ H']|[H' _]]; [lia|].
      exfalso. apply (Qlt_not_le _ _ H), H'.
Qed.







Lemma get_epsg_code_returns (utm_zone : Z) (hemisphere : string) (code : Z) :
  get_epsg_code utm_zone hemisphere = Return code ->
  (hemisphere = "N"%string /\ code = 32600 + utm_zone) \/
  (hemisphere = "S"%string /\ code = 32700 + utm_zone).
Proof.
  unfold get_epsg_code.
  destruct (String.eqb hemisphere "N") eqn:EN.
  - apply String.eqb_eq in EN. intros [= <-]. now left.
  - destruct (String.eqb hemisphere "S") eqn:ES; [|discriminate].
    apply String.eqb_eq in ES. intros [= <-]. now right.
Qed.

(** X6.  On zones 1-60 the EPSG code determines the zone and the hemisphere: two
    calls that return the same code were given the same arguments. *)
Theorem get_epsg_code_injective (zone1 zone2 : Z) (hemisphere1 hemisphere2 : string)
    (code : Z) :
  1 <= zone1 <= 60 -> 1 <= zone2 <= 60 ->
  get_epsg_code zone1 hemisphere1 = Return code ->
  get_epsg_code zone2 hemisphere2 = Return code ->
  zone1 = zone2 /\ hemisphere1 = hemisphere2.
Proof.
  intros H1 H2 E1 E2.
  apply get_epsg_code_returns in E1, E2.
  destruct E1 as [[-> C1]|[-> C1]], E2 as [[-> C2]|[-> C2]];
    split; try reflexivity; lia.
Qed.

Lemma get_epsg_code_injective_witness :
  31 = 31 /\ "S"%string = "S"%string.
Proof.
  apply (get_epsg_code_injective 31 31 "S" "S" 32731); try reflexivity; lia.
Defined.

(** ** ReprojectingSampler, continued *)

(** X7.  With equal, non-zero resolutions the scale factor is 1 and the shape
    requested is the raster's own width and height. *)
Theorem requested_shape_same_resolution (CRS : Type) (dataset : Dataset CRS)
    (resolution_meters : Q) :
  ~ (resolution_meters == 0)%Q ->
  requested_shape CRS dataset resolution_meters resolution_meters =
    Return (width dataset, height dataset).
Proof.
  intros Hnz. unfold requested_shape, py_truediv.
  destruct (Qeq_bool resolution_meters 0) eqn:E.
  - apply Qeq_bool_iff in E. contradiction.
  - cbn [bind].
    assert (Hone : forall z, py_int (inject_Z z * (resolution_meters / resolution_meters)) = z).
    { intros z. rewrite <- (py_int_inject_Z z) at 2. apply py_int_comp. now field. }
    now rewrite !Hone.
Qed.

Lemma requested_shape_same_resolution_witness :
  requested_shape Fixture.CRS (Fixture.mem_dataset Fixture.band4) 30 30 = Return (4, 4).
Proof.
  apply (requested_shape_same_resolution Fixture.CRS (Fixture.mem_dataset Fixture.band4) 30).
  discriminate.
Defined.

(** X8.  An old resolution of 0 makes the scale factor a division by zero: once
    the raster is open and the point is projected, the call raises
    [ZeroDivisionError], before the resampling capability is asked
    anything. *)
Theorem resample_zero_old_resolution (CRS : Type)
    (rasterio_open : string -> result (Dataset CRS))
    (from_epsg : Z -> result CRS)
    (transformer_transform : CRS -> CRS -> Q -> Q -> result (Q * Q))
    (calculate_default_transform :
       CRS -> CRS -> Z -> Z -> BoundingBox -> Z -> Z -> result (Affine * Z * Z))
    (tiff_file : string) (coordinate : Q * Q)
    (old_resolution_meters new_resolution_meters : Q)
    (dataset : Dataset CRS) (epsg_code : Z) (dst_crs : CRS) (projected : Q * Q) :
  rasterio_open tiff_file = Return dataset ->
  get_epsg_code (get_utm_zone (snd coordinate)) (hemisphere_of (fst coordinate))
    = Return epsg_code ->
  from_epsg epsg_code = Return dst_crs ->
  transformer_transform (crs dataset) dst_crs (snd coordinate) (fst coordinate)
    = Return projected ->
  (old_resolution_meters == 0)%Q ->
  resample_and_extract_value CRS rasterio_open from_epsg transformer_transform
    calculate_default_transform tiff_file coordinate
    old_resolution_meters new_resolution_meters = Raise ZeroDivisionError.
Proof.
  intros Hopen Hcode Hcrs Hproj Hzero.
  unfold resample_and_extract_value.
  rewrite Hopen; cbn [bind]. rewrite Hcode; cbn [bind]. rewrite Hcrs; cbn [bind].
  rewrite Hproj; cbn [bind]. destruct projected as [easting northing].
  unfold requested_shape, py_truediv.
  apply Qeq_bool_iff in Hzero. rewrite Hzero. reflexivity.
Qed.

Lemma resample_zero_old_resolution_witness :
  Fixture.resample Fixture.band4 "r.tif" (5 # 4, 7 # 4)%Q 0 30 = Raise ZeroDivisionError.
Proof.
  apply (resample_zero_old_resolution Fixture.CRS (Fixture.open Fixture.band4)
           Fixture.from_epsg Fixture.project (Fixture.default_transform Fixture.band4)
           "r.tif" (5 # 4, 7 # 4)%Q 0 30
           (Fixture.mem_dataset Fixture.band4) 32631 32631 (7 # 4, 5 # 4)%Q);
    reflexivity.
Defined.

Lemma np_axis_in_range (n i : Z) :
  - n <= i < n -> np_axis n i = Return (Z.to_nat (i mod n)).
Proof.
  intros Hi. unfold np_axis.
  destruct ((0 <=? i) && (i <? n)) eqn:E.
  - apply andb_true_iff in E. destruct E as [E1 E2].
    apply Z.leb_le in E1. apply Z.ltb_lt in E2. now rewrite Z.mod_small by lia.
  - assert (Hneg : i < 0).
    { destruct (Z.ltb_spec i 0) as [H|H]; [exact H|].
      replace (0 <=? i) with true in E by (symmetry; apply Z.leb_le; lia).
      replace (i <? n) with true in E by (symmetry; apply Z.ltb_lt; lia).
      discriminate. }
    replace (- n <=? i) with true by (symmetry; apply Z.leb_le; lia).
    replace (i <? 0) with true by (symmetry; apply Z.ltb_lt; lia).
    cbn [andb]. do 2 f_equal.
    rewrite <- (Z.mod_small (i + n) n) by lia.
    rewrite <- (Z.mul_1_l n) at 1. apply Z.mod_add. lia.
Qed.

Lemma np_axis_out_of_range (n i : Z) :
  0 <= n -> i < - n \/ n <= i -> np_axis n i = Raise IndexError.
Proof.
  intros Hn Hi. unfold np_axis.
  destruct (Z.leb_spec 0 i), (Z.ltb_spec i n), (Z.leb_spec (- n) i), (Z.ltb_spec i 0);
    cbn [andb]; try reflexivity; lia.
Qed.

Section SamplerLookup.

Variable CRS : Type.
Variable rasterio_open : string -> result (Dataset CRS).
Variable from_epsg : Z -> result CRS.
Variable transformer_transform : CRS -> CRS -> Q -> Q -> result (Q * Q).
Variable calculate_default_transform :
  CRS -> CRS -> Z -> Z -> BoundingBox -> Z -> Z -> result (Affine * Z * Z).

Variable tiff_file : string.
Variable coordinate : Q * Q.
Variables old_resolution_meters new_resolution_meters : Q.
Variable dataset : Dataset CRS.
Variable epsg_code : Z.
Variable dst_crs : CRS.
Variables easting northing : Q.
Variables req_width req_height : Z.
Variable dst_transform : Affine.
Variables dst_width dst_height : Z.
Variable data : grid.

Hypothesis opened : rasterio_open tiff_file = Return dataset.
Hypothesis coded :
  get_epsg_code (get_utm_zone (snd coordinate)) (hemisphere_of (fst coordinate))
    = Return epsg_code.
Hypothesis resolved : from_epsg epsg_code = Return dst_crs.
Hypothesis projected :
  transformer_transform (crs dataset) dst_crs (snd coordinate) (fst coordinate)
    = Return (easting, northing).
Hypothesis shaped :
  requested_shape CRS dataset old_resolution_meters new_resolution_meters
    = Return (req_width, req_height).
Hypothesis aligned :
  calculate_default_transform (crs dataset) dst_crs (width dataset) (height dataset)
    (bounds dataset) req_width req_height
    = Return (dst_transform, dst_width, dst_height).
Hypothesis resampled :
  read dataset 1 ((0, dst_height), (0, dst_width))
    (Some (1, dst_height, dst_width)) bilinear = Return data.

Local Abbreviation sample :=
  (resample_and_extract_value CRS rasterio_open from_epsg transformer_transform
     calculate_default_transform tiff_file coordinate
     old_resolution_meters new_resolution_meters).

Lemma sample_is_lookup (pixel_col pixel_row : Q) :
  pixel_coordinates dst_transform easting northing = Return (pixel_col, pixel_row) ->
  sample = Return match np_index2 data (py_int pixel_row) (py_int pixel_col) with
                  | Return v => if isnan v then None else Some v
                  | Raise _ => None
                  end.
Proof.
  intros Hpix.
  rewrite (resample_after_capabilities _ _ _ _ _ _ _ _ _ _ _ _ _ _ _ _ _ _ _ _
             opened coded resolved projected shaped aligned resampled).
  rewrite Hpix. cbn [bind]. rewrite extract_pixel_appends. reflexivity.
Qed.

(** X9.  A pixel address whose truncated row is outside [-height, height) or
    whose truncated column is outside [-width, width) of the resampled grid
    gives [None]: the [IndexError] is caught. *)
Theorem resample_index_out_of_range (pixel_col pixel_row : Q) (grid_width : Z) :
  pixel_coordinates dst_transform easting northing = Return (pixel_col, pixel_row) ->
  Forall (fun row => len row = grid_width) data ->
  py_int pixel_row < - len data \/ len data <= py_int pixel_row \/
  py_int pixel_col < - grid_width \/ grid_width <= py_int pixel_col ->
  sample = Return None.
Proof.
  intros Hpix Hrect Hout. rewrite (sample_is_lookup _ _ Hpix).
  destruct (np_index2 data (py_int pixel_row) (py_int pixel_col)) as [v|e] eqn:E;
    [|reflexivity].
  exfalso. unfold np_index2 in E.
  destruct (np_axis (len data) (py_int pixel_row)) as [ri|e] eqn:Er; [|discriminate].
  cbn [bind] in E.
  assert (Hrow : - len data <= py_int pixel_row < len data).
  { destruct (Z_lt_le_dec (py_int pixel_row) (- len data)) as [H|H];
      [rewrite np_axis_out_of_range in Er by (unfold len in *; lia); discriminate|].
    destruct (Z_lt_le_dec (py_int pixel_row) (len data)) as [H'|H'];
      [lia | rewrite np_axis_out_of_range in Er by (unfold len in *; lia); discriminate]. }
  rewrite np_axis_in_range in Er by exact Hrow. injection Er as <-.
  assert (Hlen : len (nth (Z.to_nat (py_int pixel_row mod len data)) data []) = grid_width).
  { rewrite Forall_forall in Hrect. apply Hrect, nth_In.
    pose proof (Z.mod_pos_bound (py_int pixel_row) (len data)). unfold len in *. lia. }
  rewrite Hlen in E.
  rewrite np_axis_out_of_range in E by (unfold len in *; lia).
  discriminate.
Qed.

(** X10.  A pixel address whose truncated row lies in [-height, height) and whose
    truncated column lies in [-width, width) reads the cell at the row and
    column taken modulo the height and the width, so a negative index
    counts from the opposite edge; the call returns that cell, or [None]
    when it is NaN. *)
Theorem resample_index_wraps (pixel_col pixel_row : Q) (grid_width : Z) :
  pixel_coordinates dst_transform easting northing = Return (pixel_col, pixel_row) ->
  Forall (fun row => len row = grid_width) data ->
  - len data <= py_int pixel_row < len data ->
  - grid_width <= py_int pixel_col < grid_width ->
  let v := cell data (Z.to_nat (py_int pixel_row mod len data))
             (Z.to_nat (py_int pixel_col mod grid_width)) in
  sample = Return (if isnan v then None else Some v).
Proof.
  intros Hpix Hrect Hrow Hcol v. rewrite (sample_is_lookup _ _ Hpix).
  unfold np_index2. rewrite np_axis_in_range by exact Hrow. cbn [bind].
  assert (Hlen : len (nth (Z.to_nat (py_int pixel_row mod len data)) data []) = grid_width).
  { rewrite Forall_forall in Hrect. apply Hrect, nth_In.
    pose proof (Z.mod_pos_bound (py_int pixel_row) (len data)). unfold len in *. lia. }
  rewrite Hlen, np_axis_in_range by exact Hcol. reflexivity.
Qed.

(** X11.  The transform is inverted before the [try]: when the resampling
    capability returns a singular transform the call raises
    [TransformNotInvertibleError] instead of returning [None]. *)
Theorem resample_singular_transform :
  (determinant dst_transform == 0)%Q ->
  sample = Raise TransformNotInvertibleError.
Proof.
  intros Hdet.
  rewrite (resample_after_capabilities _ _ _ _ _ _ _ _ _ _ _ _ _ _ _ _ _ _ _ _
             opened coded resolved projected shaped aligned resampled).
  unfold pixel_coordinates, affine_invert.
  apply Qeq_bool_iff in Hdet. rewrite Hdet. reflexivity.
Qed.

End SamplerLookup.

Lemma resample_index_out_of_range_witness :
  Fixture.resample Fixture.band2 "r.tif" (-1, 1 # 2)%Q 100 100 = Return None.
Proof.
  eapply (resample_index_out_of_range Fixture.CRS (Fixture.open Fixture.band2)
            Fixture.from_epsg Fixture.project (Fixture.default_transform Fixture.band2)
            "r.tif" (-1, 1 # 2)%Q 100 100 (Fixture.mem_dataset Fixture.band2)
            32731 32731 (1 # 2) (-1) 2 2
            (transform (Fixture.mem_dataset Fixture.band2)) 2 2 Fixture.band2
            eq_refl eq_refl eq_refl eq_refl eq_refl eq_refl eq_refl _ _ 2 eq_refl).
  - repeat constructor.
  - right. left. vm_compute. discriminate.
Defined.

Lemma resample_index_wraps_witness :
  Fixture.resample Fixture.band2 "r.tif" (3, 1 # 2)%Q 100 100
    = Return (Some (Fixture.n 3)).
Proof.
  eapply (resample_index_wraps Fixture.CRS (Fixture.open Fixture.band2)
            Fixture.from_epsg Fixture.project (Fixture.default_transform Fixture.band2)
            "r.tif" (3, 1 # 2)%Q 100 100 (Fixture.mem_dataset Fixture.band2)
            32631 32631 (1 # 2) 3 2 2
            (transform (Fixture.mem_dataset Fixture.band2)) 2 2 Fixture.band2
            eq_refl eq_refl eq_refl eq_refl eq_refl eq_refl eq_refl _ _ 2 eq_refl).
  - repeat constructor.
  - vm_compute. split; [discriminate | reflexivity].
  - vm_compute. split; [discriminate | reflexivity].
Defined.

Lemma resample_singular_transform_witness :
  resample_and_extract_value Fixture.CRS (Fixture.open Fixture.band2)
    Fixture.from_epsg Fixture.project
    (fun _ _ _ _ _ w h => Return (mkAffine 1 2 0 2 4 0, w, h))
    "r.tif" (1, 1)%Q 100 100 = Raise TransformNotInvertibleError.
Proof.
  apply (resample_singular_transform Fixture.CRS (Fixture.open Fixture.band2)
           Fixture.from_epsg Fixture.project
           (fun _ _ _ _ _ w h => Return (mkAffine 1 2 0 2 4 0, w, h))
           "r.tif" (1, 1)%Q 100 100 (Fixture.mem_dataset Fixture.band2)
           32631 32631 1 1 2 2 (mkAffine 1 2 0 2 4 0) 2 2 Fixture.band2
           eq_refl eq_refl eq_refl eq_refl eq_refl eq_refl eq_refl).
  reflexivity.
Defined.

(** ** Nearest-pixel extractor, continued *)

Lemma exn_eqb_neq (e1 e2 : exn) : e1 <> e2 -> exn_eqb e1 e2 = false.
Proof.
  destruct e1 as [c1], e2 as [c2]. intros Hne. unfold exn_eqb; simpl.
  apply String.eqb_neq. intros ->. now apply Hne.
Qed.

(** X12.  For a point strictly outside the bounds the extractor returns [[None]]
    without indexing or reading the raster. *)
Theorem extract_values_outside_bounds (CRS : Type)
    (rasterio_open : string -> result (Dataset CRS))
    (tiff_file : string) (coordinate : Q * Q) (dataset : Dataset CRS) :
  rasterio_open tiff_file = Return dataset ->
  (snd coordinate < left (bounds dataset) \/
   right (bounds dataset) < snd coordinate \/
   fst coordinate < bottom (bounds dataset) \/
   top (bounds dataset) < fst coordinate)%Q ->
  extract_values_at_coordinates CRS rasterio_open tiff_file coordinate = Return [None].
Proof.
  intros Hopen Hout. unfold extract_values_at_coordinates. rewrite Hopen. cbn [bind].
  now rewrite (in_bounds_outside _ _ Hout).
Qed.

Lemma extract_values_outside_bounds_witness :
  Fixture.extract Fixture.band4 "r.tif" (999, 999)%Q = Return [None].
Proof.
  apply (extract_values_outside_bounds Fixture.CRS (Fixture.open Fixture.band4)
           "r.tif" (999, 999)%Q (Fixture.mem_dataset Fixture.band4)).
  - reflexivity.
  - right. left. reflexivity.
Defined.

Section ExtractorPaths.

Variable CRS : Type.
Variable rasterio_open : string -> result (Dataset CRS).
Variable tiff_file : string.
Variable coordinate : Q * Q.
Variable dataset : Dataset CRS.
Variables row col : Z.

Hypothesis opened : rasterio_open tiff_file = Return dataset.
Hypothesis inside : in_bounds (bounds dataset) coordinate = true.
Hypothesis indexed : index dataset (snd coordinate) (fst coordinate) = (row, col).

Local Abbreviation extracted :=
  (extract_values_at_coordinates CRS rasterio_open tiff_file coordinate).
Local Abbreviation one_cell :=
  (read dataset 1 ((row, row + 1), (col, col + 1)) None nearest).

(** X13.  For an in-bounds point whose one-cell read returns a non-empty array,
    the list holds that array's first cell as it is: unlike the resampling
    sampler, a NaN cell is returned as a value, not as [None]. *)
Theorem extract_values_first_cell (value : num) (rest : list num) (rows : grid) :
  one_cell = Return ((value :: rest) :: rows) ->
  extracted = Return [Some value].
Proof.
  intros Hread. unfold extract_values_at_coordinates. rewrite opened. cbn [bind].
  rewrite inside, indexed, Hread. reflexivity.
Qed.

(** X14.  For an in-bounds point, a read that raises [IndexError], or that returns
    an array with no cell, gives [[None]]. *)
Theorem extract_values_missing_cell :
  one_cell = Raise IndexError \/
  (exists arr : grid, one_cell = Return arr /\ (arr = [] \/ nth 0 arr [] = [])) ->
  extracted = Return [None].
Proof.
  intros Hread. unfold extract_values_at_coordinates. rewrite opened. cbn [bind].
  rewrite inside, indexed.
  destruct Hread as [Hread|(arr & Hread & Hempty)]; rewrite Hread; [reflexivity|].
  cbn [bind]. destruct Hempty as [->|Hrow]; [reflexivity|].
  destruct arr as [|r rs]; [reflexivity|]. cbn in Hrow. subst r. reflexivity.
Qed.

(** X15.  For an in-bounds point, a read that raises anything but [IndexError]
    makes the extractor raise the same exception. *)
Theorem extract_values_read_error (e : exn) :
  one_cell = Raise e -> e <> IndexError -> extracted = Raise e.
Proof.
  intros Hread Hne. unfold extract_values_at_coordinates. rewrite opened. cbn [bind].
  rewrite inside, indexed, Hread. cbn [bind try_except existsb].
  now rewrite (exn_eqb_neq _ _ Hne).
Qed.

End ExtractorPaths.

Lemma extract_values_first_cell_witness :
  Fixture.extract Fixture.band_nan "r.tif" (3 # 2, 3 # 2)%Q = Return [Some NaN].
Proof.
  apply (extract_values_first_cell Fixture.CRS (Fixture.open Fixture.band_nan)
           "r.tif" (3 # 2, 3 # 2)%Q (Fixture.mem_dataset Fixture.band_nan) 0 1
           eq_refl eq_refl eq_refl NaN [] []).
  reflexivity.
Defined.

Lemma extract_values_missing_cell_witness :
  Fixture.extract Fixture.band4 "r.tif" (0, 4)%Q = Return [None].
Proof.
  apply (extract_values_missing_cell Fixture.CRS (Fixture.open Fixture.band4)
           "r.tif" (0, 4)%Q (Fixture.mem_dataset Fixture.band4) 4 4
           eq_refl eq_refl eq_refl).
  right. exists []. split; [reflexivity | now left].
Defined.

Lemma extract_values_read_error_witness :
  extract_values_at_coordinates Fixture.CRS (Fixture.open_failing (Exn "RasterioIOError"))
    "r.tif" (1, 1)%Q = Raise (Exn "RasterioIOError").
Proof.
  apply (extract_values_read_error Fixture.CRS
           (Fixture.open_failing (Exn "RasterioIOError")) "r.tif" (1, 1)%Q
           (Fixture.failing_dataset (Exn "RasterioIOError")) 3 1
           eq_refl eq_refl eq_refl).
  - reflexivity.
  - discriminate.
Defined.

(** ** AdaptiveWindowFilter, continued *)

Section FilterPaths.

Variable CRS : Type.
Variable rasterio_open : string -> result (Dataset CRS).
Variable window_size : Z.
Variable tiff_file : string.
Variable coordinate : Q * Q.
Variable dataset : Dataset CRS.
Variables row col : Z.

Hypothesis opened : rasterio_open tiff_file = Return dataset.
Hypothesis inside : in_bounds (bounds dataset) coordinate = true.
Hypothesis indexed : index dataset (snd coordinate) (fst coordinate) = (row, col).

Local Abbreviation window_read :=
  (read dataset 1 ((row, row + window_size), (col, col + window_size)) None nearest).

(** X16.  For an in-bounds point, a window read that raises [IndexError] is
    swallowed: the filter returns [None]. *)
Theorem lee_filter_read_index_error :
  window_read = Raise IndexError ->
  lee_filter CRS rasterio_open window_size tiff_file coordinate = Return None.
Proof.
  intros Hread. unfold lee_filter. rewrite opened. cbn [bind].
  rewrite inside, indexed, Hread. reflexivity.
Qed.

(** X17.  For an in-bounds point, a window read that raises anything but
    [IndexError] makes the filter raise the same exception. *)
Theorem lee_filter_read_error (e : exn) :
  window_read = Raise e -> e <> IndexError ->
  lee_filter CRS rasterio_open window_size tiff_file coordinate = Raise e.
Proof.
  intros Hread Hne. unfold lee_filter. rewrite opened. cbn [bind].
  rewrite inside, indexed, Hread. cbn [bind try_except existsb].
  now rewrite (exn_eqb_neq _ _ Hne).
Qed.

End FilterPaths.

Lemma lee_filter_read_index_error_witness :
  lee_filter Fixture.CRS (Fixture.open_failing IndexError) 3 "r.tif" (1, 1)%Q
    = Return None.
Proof.
  apply (lee_filter_read_index_error Fixture.CRS (Fixture.open_failing IndexError) 3
           "r.tif" (1, 1)%Q (Fixture.failing_dataset IndexError) 3 1
           eq_refl eq_refl eq_refl).
  reflexivity.
Defined.

Lemma lee_filter_read_error_witness :
  lee_filter Fixture.CRS (Fixture.open_failing (Exn "RasterioIOError")) 3 "r.tif"
    (1, 1)%Q = Raise (Exn "RasterioIOError").
Proof.
  apply (lee_filter_read_error Fixture.CRS
           (Fixture.open_failing (Exn "RasterioIOError")) 3 "r.tif" (1, 1)%Q
           (Fixture.failing_dataset (Exn "RasterioIOError")) 3 1
           eq_refl eq_refl eq_refl).
  - reflexivity.
  - discriminate.
Defined.

(** *** Sums, means and variances of finite values *)

Lemma nsum_from_fin (qs : list Q) (acc : Q) :
  fold_left nadd (map Fin qs) (Fin acc) = Fin (fold_left Qplus qs acc).
Proof.
  revert acc. induction qs as [|q qs IH]; intros acc; [reflexivity|].
  cbn [map fold_left]. apply IH.
Qed.

Lemma nsum_from_nan (w : list num) : fold_left nadd w NaN = NaN.
Proof. induction w as [|x xs IH]; [reflexivity|]. cbn [fold_left]. exact IH. Qed.

Lemma nsum_with_nan (w : list num) (acc : num) :
  In NaN w -> fold_left nadd w acc = NaN.
Proof.
  revert acc. induction w as [|x xs IH]; intros acc Hin; [destruct Hin|].
  cbn [fold_left]. destruct Hin as [->|Hin].
  - replace (nadd acc NaN) with NaN by (now destruct acc). apply nsum_from_nan.
  - now apply IH.
Qed.


Lemma np_mean_fin (qs : list Q) :
  qs <> [] ->
  np_mean (map Fin qs) = Fin (Qsum qs / inject_Z (Z.of_nat (List.length qs))).
Proof.
  intros Hne. destruct qs as [|q qs]; [contradiction|].
  unfold np_mean, nsum, len. rewrite length_map.
  change (map Fin (q :: qs)) with (Fin q :: map Fin qs) at 1.
  cbv iota. rewrite nsum_from_fin. reflexivity.
Qed.

Lemma np_var_fin (qs : list Q) :
  qs <> [] ->
  let n := inject_Z (Z.of_nat (List.length qs)) in
  let m := (Qsum qs / n)%Q in
  np_var (map Fin qs) = Fin (Qsum (map (fun x => (x - m) * (x - m))%Q qs) / n).
Proof.
  intros Hne n m. unfold np_var. rewrite np_mean_fin by assumption. fold n m.
  rewrite map_map. cbn [nsub nmul nlift2].
  change (map (fun x : Q => Fin ((x - m) * (x - m))) qs)
    with (map (fun x : Q => Fin ((fun y => (y - m) * (y - m))%Q x)) qs).
  rewrite <- (map_map (fun y => ((y - m) * (y - m))%Q) Fin).
  rewrite np_mean_fin by (destruct qs; [contradiction | discriminate]).
  now rewrite length_map.
Qed.

Lemma Qsum_acc_le (qs : list Q) (acc : Q) :
  Forall (fun q => 0 <= q)%Q qs -> (acc <= fold_left Qplus qs acc)%Q.
Proof.
  intros Hpos. revert acc. induction Hpos as [|q qs Hq _ IH]; intros acc.
  - apply Qle_refl.
  - cbn [fold_left]. eapply Qle_trans; [|apply IH]. lra.
Qed.


Lemma squares_nonneg (m : Q) (qs : list Q) :
  Forall (fun q => 0 <= q)%Q (map (fun x => (x - m) * (x - m))%Q qs).
Proof.
  apply Forall_forall. intros q Hin. apply in_map_iff in Hin.
  destruct Hin as (x & <- & _).
  destruct (Qlt_le_dec (x - m) 0) as [Hneg|Hpos].
  - setoid_replace ((x - m) * (x - m))%Q with ((m - x) * (m - x))%Q by ring.
    apply Qmult_le_0_compat; lra.
  - now apply Qmult_le_0_compat.
Qed.

Lemma np_mean_nan (w : list num) : In NaN w -> np_mean w = NaN.
Proof.
  intros Hin. unfold np_mean, nsum. destruct w as [|x xs]; [destruct Hin|].
  now rewrite (nsum_with_nan _ _ Hin).
Qed.

Lemma lee_rule_nan (center_value : num) (w : list num) :
  In NaN w -> lee_rule center_value w = NaN.
Proof.
  intros Hin. unfold lee_rule.
  assert (Hvar : np_var w = NaN).
  { unfold np_var. rewrite (np_mean_nan _ Hin). apply np_mean_nan.
    apply in_map_iff. exists NaN. split; [reflexivity | exact Hin]. }
  rewrite Hvar. cbn [n_eq_zero nadd nlift2]. now destruct center_value.
Qed.

Lemma np_var_nonneg (qs : list Q) :
  qs <> [] -> exists v : Q, np_var (map Fin qs) = Fin v /\ (0 <= v)%Q.
Proof.
  intros Hne. eexists. split; [apply (np_var_fin qs Hne)|].
  apply Qdiv_nonneg.
  - eapply Qle_trans; [|apply Qsum_acc_le, squares_nonneg]. apply Qle_refl.
  - change 0%Q with (inject_Z 0). rewrite <- Zlt_Qlt.
    destruct qs; [contradiction | cbn; lia].
Qed.


Lemma Qsum_constant (c : Q) (qs : list Q) (acc : Q) :
  Forall (fun q => q = c) qs ->
  (fold_left Qplus qs acc == acc + inject_Z (Z.of_nat (List.length qs)) * c)%Q.
Proof.
  intros Hall. revert acc. induction Hall as [|q qs -> _ IH]; intros acc.
  - cbn. ring.
  - cbn [fold_left List.length]. rewrite IH, Nat2Z.inj_succ.
    unfold Z.succ. rewrite inject_Z_plus. ring.
Qed.

(** On a neighbourhood of equal finite values the variance is zero and the
    rule returns that value. *)
Lemma lee_rule_uniform (center_value : num) (c : Q) (w : list num) :
  w <> [] -> Forall (fun v => v = Fin c) w ->
  exists y : Q, lee_rule center_value w = Fin y /\ (y == c)%Q.
Proof.
  intros Hne Hall.
  assert (Hqs : exists qs, w = map Fin qs /\ Forall (fun q => q = c) qs).
  { clear Hne. induction Hall as [|v vs -> _ (qs & -> & Hqs)].
    - exists []. split; [reflexivity | constructor].
    - exists (c :: qs). split; [reflexivity | now constructor]. }
  destruct Hqs as (qs & -> & Hqs).
  assert (Hqne : qs <> []) by (intros ->; now apply Hne).
  unfold lee_rule. rewrite (np_var_fin qs Hqne), (np_mean_fin qs Hqne).
  set (n := inject_Z (Z.of_nat (List.length qs))).
  set (m := (Qsum qs / n)%Q).
  assert (Hn : (0 < n)%Q).
  { unfold n. change 0%Q with (inject_Z 0). rewrite <- Zlt_Qlt.
    destruct qs; [contradiction | cbn; lia]. }
  assert (Hm : (m == c)%Q).
  { unfold m, Qsum. rewrite (Qsum_constant c qs 0 Hqs). fold n. field. lra. }
  assert (Hsq : (Qsum (map (fun x => (x - m) * (x - m))%Q qs) == 0)%Q).
  { unfold Qsum.
    rewrite (Qsum_constant ((c - m) * (c - m))%Q).
    - rewrite Hm. ring.
    - apply Forall_forall. intros q Hin. apply in_map_iff in Hin.
      destruct Hin as (x & <- & Hx). rewrite Forall_forall in Hqs.
      now rewrite (Hqs x Hx). }
  cbn [n_eq_zero].
  replace (Qeq_bool (Qsum (map (fun x => (x - m) * (x - m))%Q qs) / n) 0) with true
    by (symmetry; apply Qeq_bool_iff; rewrite Hsq; field; lra).
  exists m. split; [reflexivity | exact Hm].
Qed.

(** *** Neighbourhoods *)



Lemma footprint_in (size : Z) (a : grid) (i j : Z) (di dj : nat) :
  (di < Z.to_nat size)%nat -> (dj < Z.to_nat size)%nat ->
  In (pad_get a (i + Z.of_nat di - size / 2) (j + Z.of_nat dj - size / 2))
     (footprint size a i j).
Proof.
  intros Hdi Hdj.
  assert (Hlen : List.length (footprint size a i j) = (Z.to_nat size * Z.to_nat size)%nat).
  { unfold footprint.
    rewrite (flat_map_length_const _ _ _ (Z.to_nat size))
      by (intros; now rewrite length_map, zrange_length).
    now rewrite zrange_length. }
  rewrite <- (footprint_nth size a i j di dj Hdi Hdj).
  apply nth_In. rewrite Hlen. nia.
Qed.



Section FilterValues.

Variable CRS : Type.
Variable rasterio_open : string -> result (Dataset CRS).
Variable window_size : Z.
Variable tiff_file : string.
Variable coordinate : Q * Q.
Variable dataset : Dataset CRS.
Variables row col : Z.
Variable window : grid.

Hypothesis size_pos : 0 < window_size.
Hypothesis opened : rasterio_open tiff_file = Return dataset.
Hypothesis inside : in_bounds (bounds dataset) coordinate = true.
Hypothesis indexed : index dataset (snd coordinate) (fst coordinate) = (row, col).
Hypothesis was_read :
  read dataset 1 ((row, row + window_size), (col, col + window_size)) None nearest
    = Return window.

Variables i j : nat.
Hypothesis row_in_window : (i < List.length window)%nat.
Hypothesis col_in_window : (j < List.length (nth i window []))%nat.

Local Abbreviation filtered_window :=
  (lee_filter CRS rasterio_open window_size tiff_file coordinate).

Lemma filtered_cell :
  exists filtered : grid,
    filtered_window = Return (Some filtered) /\
    cell filtered i j =
      lee_rule (cell window i j) (footprint window_size window (Z.of_nat i) (Z.of_nat j)).
Proof.
  exists (lee_filtered window_size window). split.
  - exact (lee_filter_in_bounds CRS rasterio_open window_size tiff_file coordinate
             dataset row col window size_pos opened inside indexed was_read).
  - now apply lee_filtered_cell.
Qed.

(** X18.  A NaN cell of the window makes NaN every output cell whose
    neighbourhood covers it. *)
Theorem lee_filter_nan_spreads (i' j' : nat) :
  (j' < List.length (nth i' window []))%nat ->
  cell window i' j' = NaN ->
  Z.of_nat i - window_size / 2 <= Z.of_nat i' < Z.of_nat i - window_size / 2 + window_size ->
  Z.of_nat j - window_size / 2 <= Z.of_nat j' < Z.of_nat j - window_size / 2 + window_size ->
  exists filtered : grid,
    filtered_window = Return (Some filtered) /\ cell filtered i j = NaN.
Proof.
  intros Hj' Hnan Hi Hj.
  destruct filtered_cell as (filtered & Hret & Hcell).
  exists filtered. split; [exact Hret|]. rewrite Hcell. apply lee_rule_nan.
  rewrite <- Hnan, <- (pad_get_inside window i' j' Hj').
  pose proof (footprint_in window_size window (Z.of_nat i) (Z.of_nat j)
                (Z.to_nat (Z.of_nat i' - Z.of_nat i + window_size / 2))
                (Z.to_nat (Z.of_nat j' - Z.of_nat j + window_size / 2))) as Hin.
  rewrite !Z2Nat.id in Hin by lia.
  replace (Z.of_nat i + (Z.of_nat i' - Z.of_nat i + window_size / 2) - window_size / 2)
    with (Z.of_nat i') in Hin by lia.
  replace (Z.of_nat j + (Z.of_nat j' - Z.of_nat j + window_size / 2) - window_size / 2)
    with (Z.of_nat j') in Hin by lia.
  apply Hin; lia.
Qed.



End FilterValues.

Lemma lee_filter_nan_spreads_witness :
  exists filtered : grid,
    Fixture.lee Fixture.band_nan 2 "r.tif" (3 # 2, 1 # 2)%Q = Return (Some filtered) /\
    cell filtered 1 1 = NaN.
Proof.
  apply (lee_filter_nan_spreads Fixture.CRS (Fixture.open Fixture.band_nan) 2
           "r.tif" (3 # 2, 1 # 2)%Q (Fixture.mem_dataset Fixture.band_nan) 0 0
           Fixture.band_nan eq_refl eq_refl eq_refl eq_refl eq_refl 1%nat 1%nat
           ltac:(simpl; lia) ltac:(simpl; lia) 0%nat 1%nat);
    try reflexivity; simpl; lia.
Defined.



Lemma footprint_one (a : grid) (i j : Z) : footprint 1 a i j = [pad_get a i j].
Proof.
  unfold footprint. change (zrange 1) with [0]. cbn [flat_map map app].
  change (1 / 2) with 0. now rewrite !Z.add_0_r, !Z.sub_0_r.
Qed.

(** X21.  With [window_size] 1 every neighbourhood is the cell alone: a finite
    cell comes back with its own value and a NaN cell stays NaN. *)
Theorem lee_filter_window_size_one (CRS : Type)
    (rasterio_open : string -> result (Dataset CRS))
    (tiff_file : string) (coordinate : Q * Q) (dataset : Dataset CRS)
    (row col : Z) (window : grid) (i j : nat) :
  rasterio_open tiff_file = Return dataset ->
  in_bounds (bounds dataset) coordinate = true ->
  index dataset (snd coordinate) (fst coordinate) = (row, col) ->
  read dataset 1 ((row, row + 1), (col, col + 1)) None nearest = Return window ->
  (i < List.length window)%nat -> (j < List.length (nth i window []))%nat ->
  exists filtered : grid,
    lee_filter CRS rasterio_open 1 tiff_file coordinate = Return (Some filtered) /\
    match cell window i j with
    | NaN => cell filtered i j = NaN
    | Fin x => exists y : Q, cell filtered i j = Fin y /\ (y == x)%Q
    end.
Proof.
  intros Hopen Hin Hidx Hread Hi Hj.
  destruct (filtered_cell CRS rasterio_open 1 tiff_file coordinate dataset row col
              window ltac:(lia) Hopen Hin Hidx Hread i j Hi Hj)
    as (filtered & Hret & Hcell).
  exists filtered. split; [exact Hret|].
  rewrite Hcell, footprint_one, (pad_get_inside window i j Hj).
  destruct (cell window i j) as [x|].
  - apply lee_rule_uniform; [discriminate | repeat constructor].
  - apply lee_rule_nan. now left.
Qed.

Lemma lee_filter_window_size_one_witness :
  exists filtered : grid,
    Fixture.lee Fixture.band4 1 "r.tif" (5 # 2, 3 # 2)%Q = Return (Some filtered) /\
    exists y : Q, cell filtered 0 0 = Fin y /\ (y == 22)%Q.
Proof.
  apply (lee_filter_window_size_one Fixture.CRS (Fixture.open Fixture.band4)
           "r.tif" (5 # 2, 3 # 2)%Q (Fixture.mem_dataset Fixture.band4) 1 1
           [ [Fixture.n 22] ] 0%nat 0%nat eq_refl eq_refl eq_refl eq_refl);
    simpl; lia.
Defined.
